(** * Heart-failure prediction service: a model of [cardio_backend/app.py]

    The program is one Flask module: two artifacts unpickled at import time
    ([model], [scaler]) and two views, [home] for [/] and [predict] for
    [/predict].  This file embeds the module and proves the properties its
    specification states about the two views.

    What is modelled and how:
    - Python values that travel through a request (the object produced by
      [request.get_json()], the cells of the data frame, the dictionaries
      given to [jsonify]) are terms of [value];
    - a Python [float] is the rational number it denotes ([Q]); NaN and the
      infinities are outside the model, and [round] returns the exact decimal
      where CPython returns the double nearest to it;
    - an exception is the pair of its class name and of [str(e)], the only
      two things the handler can observe; only exceptions deriving from
      [Exception] are modelled (those the interpreter, Flask, pandas and
      scikit-learn raise);
    - the two artifacts are opaque: their methods are parameters of the
      development, running over an unknown store so that an artifact that
      mutates itself is a possible instance. *)

From Stdlib Require Import List String Ascii Bool ZArith QArith Qround Lia Lqa.
From Stdlib Require Import Permutation DecimalString.
Import ListNotations.

Set Warnings "-register-all".

Local Open Scope string_scope.
Local Open Scope Z_scope.

(** ** Python values *)

(** [VDict] keeps the members of a JSON object in document order; a key
    written twice keeps both members here and [dict_get] reads the last one,
    as the dictionary built by [json.loads] does. *)
Inductive value : Type :=
| VNone
| VBool (b : bool)
| VInt (z : Z)
| VFloat (q : Q)
| VStr (s : string)
| VList (items : list value)
| VDict (members : list (string * value)).

(** Lookup of key [k] in the dictionary built from the members [kvs]. *)
Fixpoint dict_get (k : string) (kvs : list (string * value)) : option value :=
  match kvs with
  | [] => None
  | (k', v) :: rest =>
      match dict_get k rest with
      | Some v' => Some v'
      | None => if String.eqb k k' then Some v else None
      end
  end.

(** [type(v).__name__] *)
Definition type_name (v : value) : string :=
  match v with
  | VNone => "NoneType"
  | VBool _ => "bool"
  | VInt _ => "int"
  | VFloat _ => "float"
  | VStr _ => "str"
  | VList _ => "list"
  | VDict _ => "dict"
  end.

(** ** Exceptions and outcomes *)

Record exn : Type := mkExn { exn_class : string; exn_str : string }.

Definition KeyError (key : string) : exn := mkExn "KeyError" ("'" ++ key ++ "'").
Definition TypeError (msg : string) : exn := mkExn "TypeError" msg.
Definition IndexError (msg : string) : exn := mkExn "IndexError" msg.
Definition ValueError (msg : string) : exn := mkExn "ValueError" msg.

(** werkzeug's [HTTPException.__str__]: code, name and description. *)
Definition HTTPException (cls code_name description : string) : exn :=
  mkExn cls (code_name ++ ": " ++ description).
Definition BadRequest (description : string) : exn :=
  HTTPException "BadRequest" "400 Bad Request" description.
Definition UnsupportedMediaType (description : string) : exn :=
  HTTPException "UnsupportedMediaType" "415 Unsupported Media Type" description.

Inductive outcome (A : Type) : Type :=
| Return (a : A)
| Raise (e : exn).
Arguments Return {A} a.
Arguments Raise {A} e.

(** ** Built-in operations the handler uses *)

(** [obj[key]] with a string key, line 26 to 37. *)
Definition subscript (obj : value) (key : string) : outcome value :=
  match obj with
  | VDict kvs =>
      match dict_get key kvs with
      | Some v => Return v
      | None => Raise (KeyError key)
      end
  | VList _ => Raise (TypeError "list indices must be integers or slices, not str")
  | VStr _ => Raise (TypeError "string indices must be integers, not 'str'")
  | _ => Raise (TypeError ("'" ++ type_name obj ++ "' object is not subscriptable"))
  end.

(** Elements of the arrays the classifier returns. *)
Inductive scalar : Type :=
| NInt (z : Z)
| NFloat (q : Q)
| NStr (s : string).

Definition string_of_nat (n : nat) : string :=
  NilEmpty.string_of_uint (Nat.to_uint n).

(** [a[i]] on an array along its first axis. *)
Definition index {A : Type} (a : list A) (i : nat) : outcome A :=
  match nth_error a i with
  | Some x => Return x
  | None =>
      Raise (IndexError ("index " ++ string_of_nat i
                         ++ " is out of bounds for axis 0 with size "
                         ++ string_of_nat (List.length a)))
  end.

(** Rounding of a rational to the nearest integer, ties to the even one. *)
Definition round_half_even (q : Q) : Z :=
  let f := Qfloor q in
  match Qcompare (q - inject_Z f) (1 # 2) with
  | Lt => f
  | Gt => f + 1
  | Eq => if Z.even f then f else f + 1
  end.

(** [round(x, ndigits)] on a float, for [ndigits >= 0]. *)
Definition py_round (x : Q) (ndigits : nat) : Q :=
  let scale := Z.to_pos (10 ^ Z.of_nat ndigits) in
  Qmake (round_half_even (x * inject_Z (Zpos scale))) scale.

(** ** Data frames *)

Record DataFrame : Type := mkDataFrame
  { df_columns : list string;
    df_rows : list (list value) }.

(** [pd.DataFrame(rows, columns=columns)] for a list of rows. *)
Definition pd_DataFrame (rows : list (list value)) (columns : list string)
  : outcome DataFrame :=
  match find (fun r => negb (Nat.eqb (List.length r) (List.length columns))) rows with
  | None => Return (mkDataFrame columns rows)
  | Some r =>
      Raise (ValueError (string_of_nat (List.length columns)
                         ++ " columns passed, passed data had "
                         ++ string_of_nat (List.length r) ++ " columns"))
  end.

(** ** Requests and responses *)

Inductive method : Type := GET | HEAD | POST | PUT | DELETE | PATCH | OPTIONS.

(** The body of a request as [json.loads] sees it. *)
Inductive payload : Type :=
| Parsed (v : value)
| Malformed (detail : string).

Record request : Type := mkRequest
  { req_method : method;
    req_path : string;
    req_args : list (string * string);
    req_is_json : bool;
    req_data : payload }.

Record response : Type := mkResponse
  { status : Z;
    body : value }.

(** [jsonify(d)] returned alone, and [jsonify(d), code]. *)
Definition jsonify (d : list (string * value)) : response := mkResponse 200 (VDict d).
Definition with_status (r : response) (code : Z) : response := mkResponse code (body r).

(** ** Computations: an outcome and the artifacts' store after it *)

Definition M (Store A : Type) : Type := Store -> outcome A * Store.

Definition ret {Store A} (a : A) : M Store A := fun s => (Return a, s).

Definition raise {Store A} (e : exn) : M Store A := fun s => (Raise e, s).

Definition lift {Store A} (o : outcome A) : M Store A := fun s => (o, s).

Definition bind {Store A B} (c : M Store A) (k : A -> M Store B) : M Store B :=
  fun s =>
    match c s with
    | (Return a, s') => k a s'
    | (Raise e, s') => (Raise e, s')
    end.

(** [try: c  except Exception as e: h e] *)
Definition try_except {Store A} (c : M Store A) (h : exn -> M Store A) : M Store A :=
  fun s =>
    match c s with
    | (Return a, s') => (Return a, s')
    | (Raise e, s') => h e s'
    end.

Declare Scope py_scope.
Delimit Scope py_scope with py.
Notation "x <- c ;; k" := (bind c (fun x => k))
  (at level 61, c at next level, right associativity) : py_scope.

(** The same sequencing for operations that do not touch the store. *)
Definition obind {A B} (o : outcome A) (k : A -> outcome B) : outcome B :=
  match o with
  | Return a => k a
  | Raise e => Raise e
  end.
Notation "x <~ o ;; k" := (obind o (fun x => k))
  (at level 61, o at next level, right associativity) : py_scope.

Local Open Scope py_scope.

(** ** The module [app.py] *)

(** Lines 25 to 38: the list display evaluates its twelve subscriptions from
    left to right and the first one that raises ends it. *)
Definition features (data : value) : outcome (list value) :=
  age <~ subscript data "age" ;;
  anaemia <~ subscript data "anaemia" ;;
  creatinine_phosphokinase <~ subscript data "creatinine_phosphokinase" ;;
  diabetes <~ subscript data "diabetes" ;;
  ejection_fraction <~ subscript data "ejection_fraction" ;;
  high_blood_pressure <~ subscript data "high_blood_pressure" ;;
  platelets <~ subscript data "platelets" ;;
  serum_creatinine <~ subscript data "serum_creatinine" ;;
  serum_sodium <~ subscript data "serum_sodium" ;;
  sex <~ subscript data "sex" ;;
  smoking <~ subscript data "smoking" ;;
  time <~ subscript data "time" ;;
  Return [age; anaemia; creatinine_phosphokinase; diabetes; ejection_fraction;
          high_blood_pressure; platelets; serum_creatinine; serum_sodium; sex;
          smoking; time].

(** Lines 41 to 54. *)
Definition cols : list string :=
  [ "age";
    "anaemia";
    "creatinine_phosphokinase";
    "diabetes";
    "ejection_fraction";
    "high_blood_pressure";
    "platelets";
    "serum_creatinine";
    "serum_sodium";
    "sex";
    "smoking";
    "time" ].

(** The first required key a dictionary does not bind. *)
Definition first_missing (kvs : list (string * value)) : option string :=
  find (fun k => match dict_get k kvs with None => true | Some _ => false end) cols.

(** Line 16. *)
Definition home_message : list (string * value) :=
  [("message", VStr "Heart Disease Prediction API is running!")].

(** Line 71. *)
Definition error_response (e : exn) : response :=
  with_status (jsonify [("error", VStr (exn_str e))]) 400.

(** Whether [request.get_json()] can produce a JSON object: the content type
    is JSON and the body parses to an object. *)
Definition json_object_body (req : request) : bool :=
  req_is_json req
  && match req_data req with
     | Parsed (VDict _) => true
     | _ => false
     end.

(** Lines 14 and 18: the two rules.  Flask adds HEAD to a rule that accepts
    GET. *)
Inductive endpoint : Type := home_endpoint | predict_endpoint.

Definition url_map : list (string * list method * endpoint) :=
  [ ("/", [GET; HEAD], home_endpoint);
    ("/predict", [POST], predict_endpoint) ].

Definition method_eqb (a b : method) : bool :=
  match a, b with
  | GET, GET | HEAD, HEAD | POST, POST | PUT, PUT
  | DELETE, DELETE | PATCH, PATCH | OPTIONS, OPTIONS => true
  | _, _ => false
  end.

(** The rule a request matches: by its path and its method, never by its
    query string or its body. *)
Definition match_request (req : request) : option endpoint :=
  match find (fun rule =>
                String.eqb (fst (fst rule)) (req_path req)
                && existsb (method_eqb (req_method req)) (snd (fst rule)))
             url_map with
  | Some rule => Some (snd rule)
  | None => None
  end.

(** What the module runs with: the two unpickled artifacts (lines 11 and
    12) with the methods the handler calls, [scaler.transform],
    [model.predict] and [model.predict_proba]; the interpreter's [int] and
    [float] on strings; Flask's debug flag.  [Store] is the state the
    artifacts live in, [Scaled] what the scaler hands to the classifier. *)
Record Env (Store Scaled : Type) : Type := mkEnv
  { scaler_transform : DataFrame -> M Store Scaled;
    model_predict : Scaled -> M Store (list scalar);
    model_predict_proba : Scaled -> M Store (list (list scalar));
    int_of_str : string -> outcome Z;
    float_of_str : string -> outcome Q;
    debug : bool }.
Arguments mkEnv {Store Scaled}.
Arguments scaler_transform {Store Scaled}.
Arguments model_predict {Store Scaled}.
Arguments model_predict_proba {Store Scaled}.
Arguments int_of_str {Store Scaled}.
Arguments float_of_str {Store Scaled}.
Arguments debug {Store Scaled}.

Section Service.

Context {Store Scaled : Type} (env : Env Store Scaled).

(** [int(x)]: a float is truncated towards zero. *)
Definition py_int (x : scalar) : outcome Z :=
  match x with
  | NInt z => Return z
  | NFloat q => Return (Z.quot (Qnum q) (Zpos (Qden q)))
  | NStr s => int_of_str env s
  end.

(** [float(x)] *)
Definition py_float (x : scalar) : outcome Q :=
  match x with
  | NInt z => Return (inject_Z z)
  | NFloat q => Return q
  | NStr s => float_of_str env s
  end.

(** [request.get_json()] with its default arguments: a request whose
    content type is not JSON is refused, a body that does not parse is a
    bad request, whose description carries the parser's message only in
    debug mode. *)
Definition get_json (req : request) : outcome value :=
  if req_is_json req then
    match req_data req with
    | Parsed v => Return v
    | Malformed detail =>
        Raise (BadRequest
                 (if debug env then "Failed to decode JSON object: " ++ detail
                  else "The browser (or proxy) sent a request that this server could not understand."))
    end
  else
    Raise (UnsupportedMediaType
             "Did not attempt to load JSON data because the request Content-Type was not 'application/json'.").

(** Lines 14 to 16. *)
Definition home (req : request) : M Store response :=
  ret (jsonify home_message).

(** Lines 60 to 68, from the scaled features on.  The dictionary display of
    line 65 evaluates [int(prediction)] before [round(float(probability), 4)]. *)
Definition inference (scaled_features : Scaled) : M Store response :=
  labels <- model_predict env scaled_features ;;
  prediction <- lift (index labels 0) ;;
  probas <- model_predict_proba env scaled_features ;;
  row <- lift (index probas 0) ;;
  probability <- lift (index row 1) ;;
  prediction_int <- lift (py_int prediction) ;;
  probability_float <- lift (py_float probability) ;;
  ret (jsonify [("prediction", VInt prediction_int);
                ("probability", VFloat (py_round probability_float 4))]).

(** Lines 21 to 68: the body of the [try]. *)
Definition predict_body (req : request) : M Store response :=
  data <- lift (get_json req) ;;
  features <- lift (features data) ;;
  df <- lift (pd_DataFrame [features] cols) ;;
  scaled_features <- scaler_transform env df ;;
  inference scaled_features.

(** Lines 18 to 71. *)
Definition predict (req : request) : M Store response :=
  try_except (predict_body req) (fun e => ret (error_response e)).

(** The handler from line 58 on, for a feature list [vs] that lines 25 to
    55 have put in the frame. *)
Definition scale_and_infer (vs : list value) : M Store response :=
  try_except
    (scaled_features <- scaler_transform env (mkDataFrame cols [vs]) ;;
     inference scaled_features)
    (fun e => ret (error_response e)).

Definition view_function (e : endpoint) : request -> M Store response :=
  match e with
  | home_endpoint => home
  | predict_endpoint => predict
  end.

(** The view run for a request; [None] when the framework answers by
    itself (no rule, or a method the rule does not accept). *)
Definition dispatch_request (req : request) : option (M Store response) :=
  match match_request req with
  | Some e => Some (view_function e req)
  | None => None
  end.

End Service.

(** Where an exception can leave the body of the [try]: reading the JSON
    body, extracting the keys, constructing the record, scaling, inference.
    The second store is the one the exception leaves behind. *)
Inductive raises {Store Scaled : Type} (env : Env Store Scaled) (req : request)
  (s : Store) : exn -> Store -> Prop :=
| raises_get_json e :
    get_json env req = Raise e ->
    raises env req s e s
| raises_key_extraction data e :
    get_json env req = Return data ->
    features data = Raise e ->
    raises env req s e s
| raises_record_construction data vs e :
    get_json env req = Return data ->
    features data = Return vs ->
    pd_DataFrame [vs] cols = Raise e ->
    raises env req s e s
| raises_scaling data vs df e s1 :
    get_json env req = Return data ->
    features data = Return vs ->
    pd_DataFrame [vs] cols = Return df ->
    scaler_transform env df s = (Raise e, s1) ->
    raises env req s e s1
| raises_inference data vs df scaled s1 e s2 :
    get_json env req = Return data ->
    features data = Return vs ->
    pd_DataFrame [vs] cols = Return df ->
    scaler_transform env df s = (Return scaled, s1) ->
    inference env scaled s1 = (Raise e, s2) ->
    raises env req s e s2.

(** An artifact method that leaves the store as it found it. *)
Definition read_only {Store A B : Type} (f : A -> M Store B) : Prop :=
  forall a s, snd (f a s) = s.

(** Artifacts that are immutable after loading. *)
Definition immutable_artifacts {Store Scaled : Type} (env : Env Store Scaled) : Prop :=
  read_only (scaler_transform env)
  /\ read_only (model_predict env)
  /\ read_only (model_predict_proba env).


(** ** Observing the handler from outside *)

(** A call received by an artifact, with its argument. *)
Inductive call (Scaled : Type) : Type :=
| call_transform (df : DataFrame)
| call_predict (x : Scaled)
| call_predict_proba (x : Scaled).
Arguments call_transform {Scaled} df.
Arguments call_predict {Scaled} x.
Arguments call_predict_proba {Scaled} x.

(** A method that runs as [c] does and adds [entry] to a journal kept beside
    the store. *)
Definition journal {Store Entry A : Type} (c : M Store A) (entry : Entry)
  : M (Store * list Entry) A :=
  fun st => (fst (c (fst st)), (snd (c (fst st)), (snd st ++ [entry])%list)).

(** The same artifacts, each method writing the call it receives in the
    journal. *)
Definition journaled {Store Scaled : Type} (env : Env Store Scaled)
  : Env (Store * list (call Scaled)) Scaled :=
  mkEnv (fun df => journal (scaler_transform env df) (call_transform df))
        (fun x => journal (model_predict env x) (call_predict x))
        (fun x => journal (model_predict_proba env x) (call_predict_proba x))
        (int_of_str env) (float_of_str env) (debug env).

(** Requests served one after the other over the same artifacts: what each
    view produced, [None] where no view is run, and the store at the end. *)
Fixpoint serve {Store Scaled : Type} (env : Env Store Scaled)
  (reqs : list request) (s : Store) : list (option (outcome response)) * Store :=
  match reqs with
  | [] => ([], s)
  | req :: rest =>
      match dispatch_request env req with
      | Some view =>
          (Some (fst (view s)) :: fst (serve env rest (snd (view s))),
           snd (serve env rest (snd (view s))))
      | None => (None :: fst (serve env rest s), snd (serve env rest s))
      end
  end.

(** What a request is answered when it is served alone from store [s]. *)
Definition served_alone {Store Scaled : Type} (env : Env Store Scaled)
  (s : Store) (req : request) : option (outcome response) :=
  match dispatch_request env req with
  | Some view => Some (fst (view s))
  | None => None
  end.

(** ** Concrete artifacts and requests

    Small instances of [Env] on which the statements below are run: a
    threshold classifier behind an identity scaler that never touches the
    store, the same pair with a scaler that records what it is given, and a
    classifier whose answer drifts with the number of calls. *)

Definition cell_number (v : value) : outcome Q :=
  match v with
  | VInt z => Return (inject_Z z)
  | VFloat q => Return q
  | VBool b => Return (if b then 1%Q else 0%Q)
  | _ => Raise (ValueError ("could not convert " ++ type_name v ++ " to float"))
  end.

Fixpoint row_numbers (row : list value) : outcome (list Q) :=
  match row with
  | [] => Return []
  | v :: rest =>
      x <~ cell_number v ;;
      xs <~ row_numbers rest ;;
      Return (x :: xs)
  end.

(** The scaled vector of the first row of the frame. *)
Definition demo_transform {Store} (df : DataFrame) : M Store (list Q) :=
  match df_rows df with
  | [row] => lift (row_numbers row)
  | _ => raise (ValueError "Expected a single sample")
  end.

(** Positive when the ejection fraction (column 4) is below 30. *)
Definition demo_positive (x : list Q) : bool :=
  match nth_error x 4 with
  | Some ef => match Qcompare ef 30 with Lt => true | _ => false end
  | None => false
  end.

Definition demo_predict {Store} (x : list Q) : M Store (list scalar) :=
  ret [NInt (if demo_positive x then 1 else 0)].

Definition demo_predict_proba {Store} (x : list Q) : M Store (list (list scalar)) :=
  ret [if demo_positive x
       then [NFloat (12345 # 100000); NFloat (87655 # 100000)]
       else [NFloat (87655 # 100000); NFloat (12345 # 100000)]].

Definition no_str_conversion {A} (s : string) : outcome A :=
  Raise (ValueError ("could not convert string: '" ++ s ++ "'")).

Definition demo_env : Env nat (list Q) :=
  mkEnv demo_transform demo_predict demo_predict_proba
        no_str_conversion no_str_conversion true.

(** The scaler appends its argument to the store. *)
Definition spy_env : Env (list DataFrame) (list Q) :=
  mkEnv (fun df s => demo_transform df (s ++ [df])%list) demo_predict demo_predict_proba
        no_str_conversion no_str_conversion false.

(** The classifier counts its calls and flips its label on odd counts. *)
Definition drifting_env : Env nat (list Q) :=
  mkEnv demo_transform
        (fun x n => (Return [NInt (if Nat.even n then 1 else 0)], S n))
        demo_predict_proba
        no_str_conversion no_str_conversion false.

(** The request of the specification's scenario. *)
Definition scenario_members : list (string * value) :=
  [ ("age", VInt 75); ("anaemia", VInt 0); ("creatinine_phosphokinase", VInt 582);
    ("diabetes", VInt 0); ("ejection_fraction", VInt 20);
    ("high_blood_pressure", VInt 1); ("platelets", VInt 265000);
    ("serum_creatinine", VFloat (19 # 10)); ("serum_sodium", VInt 130);
    ("sex", VInt 1); ("smoking", VInt 0); ("time", VInt 4) ].

Definition post_predict (p : payload) : request :=
  mkRequest POST "/predict" [] true p.

Definition scenario_request : request :=
  post_predict (Parsed (VDict scenario_members)).

(** The same request without its [age] member. *)
Definition scenario_without_age : request :=
  post_predict (Parsed (VDict (tl scenario_members))).

Definition scenario_row : list value :=
  [ VInt 75; VInt 0; VInt 582; VInt 0; VInt 20; VInt 1; VInt 265000;
    VFloat (19 # 10); VInt 130; VInt 1; VInt 0; VInt 4 ].

Definition scenario_frame : DataFrame :=
  mkDataFrame
    [ "age"; "anaemia"; "creatinine_phosphokinase"; "diabetes";
      "ejection_fraction"; "high_blood_pressure"; "platelets";
      "serum_creatinine"; "serum_sodium"; "sex"; "smoking"; "time" ]
    [scenario_row].

Definition scenario_scaled : list Q :=
  [ inject_Z 75; inject_Z 0; inject_Z 582; inject_Z 0; inject_Z 20; inject_Z 1;
    inject_Z 265000; 19 # 10; inject_Z 130; inject_Z 1; inject_Z 0; inject_Z 4 ].

(** The scenario with a string where the age is expected. *)
Definition scenario_bad_age : request :=
  post_predict (Parsed (VDict (("age", VStr "seventy-five") :: tl scenario_members))).

(** The scenario with its members in reverse order, and with two members
    more. *)
Definition scenario_reversed : request :=
  post_predict (Parsed (VDict (rev scenario_members))).

Definition scenario_with_extras : request :=
  post_predict
    (Parsed (VDict (("patient", VStr "anonymous") :: scenario_members
                    ++ [("weight", VInt 80)])%list)).

(** What the demonstration artifacts answer to the scenario. *)
Definition scenario_response : response :=
  mkResponse 200 (VDict [("prediction", VInt 1);
                         ("probability", VFloat (8766 # 10000))]).

(** A GET request to [/] with a query string and a body. *)
Definition home_request : request :=
  mkRequest GET "/" [("verbose", "1")] false (Malformed "<html>").

(** A classifier fitted on one class only: one column of probabilities. *)
Definition single_class_env : Env nat (list Q) :=
  mkEnv demo_transform demo_predict (fun _ => ret [[NFloat 1]])
        no_str_conversion no_str_conversion false.

(** The scenario with its age written twice, the second time as 40. *)
Definition scenario_age_twice : request :=
  post_predict (Parsed (VDict (scenario_members ++ [("age", VInt 40)])%list)).

Definition scenario_age_40 : request :=
  post_predict
    (Parsed (VDict (filter (fun m => negb (String.eqb (fst m) "age")) scenario_members
                    ++ [("age", VInt 40)])%list)).

(** A morning of requests. *)
Definition scenario_session : list request :=
  [ home_request; scenario_request; scenario_without_age;
    mkRequest GET "/predict" [] false (Parsed VNone); scenario_request ].

(** * Properties *)

(** ** Rounding *)

Lemma round_half_even_floor (q : Q) :
  round_half_even q = Qfloor q \/ round_half_even q = Qfloor q + 1.
Proof.
  unfold round_half_even.
  destruct (Qcompare _ _); [destruct (Z.even _)| |]; auto.
Qed.

Lemma round_half_even_near (q : Q) :
  (q - (1 # 2) <= inject_Z (round_half_even q) <= q + (1 # 2))%Q.
Proof.
  pose proof (Qfloor_le q) as Hlo. pose proof (Qlt_floor q) as Hhi.
  rewrite inject_Z_plus in Hhi.
  unfold round_half_even.
  destruct (Qcompare (q - inject_Z (Qfloor q)) (1 # 2)) eqn:C.
  - apply Qeq_alt in C.
    destruct (Z.even (Qfloor q)); [|rewrite inject_Z_plus];
      change (inject_Z 1) with 1%Q in *; lra.
  - apply Qlt_alt in C. lra.
  - apply Qgt_alt in C. rewrite inject_Z_plus.
    change (inject_Z 1) with 1%Q in *. lra.
Qed.

Lemma round_half_even_range (q : Q) (n : Z) :
  (0 <= q <= inject_Z n)%Q -> 0 <= round_half_even q <= n.
Proof.
  intros [Hlo Hhi].
  assert (H0 : 0 <= Qfloor q).
  { change 0 with (Qfloor (inject_Z 0)). now apply Qfloor_resp_le. }
  assert (Hn : Qfloor q <= n).
  { rewrite <- (Qfloor_Z n). now apply Qfloor_resp_le. }
  unfold round_half_even.
  destruct (Qcompare (q - inject_Z (Qfloor q)) (1 # 2)) eqn:C.
  - apply Qeq_alt in C.
    assert (Qfloor q <> n).
    { intros E. rewrite E in C. lra. }
    destruct (Z.even (Qfloor q)); lia.
  - lia.
  - apply Qgt_alt in C.
    assert (Qfloor q <> n).
    { intros E. rewrite E in C. lra. }
    lia.
Qed.

Lemma py_round_4 (x : Q) :
  py_round x 4 = (round_half_even (x * inject_Z 10000) # 10000).
Proof. reflexivity. Qed.

Lemma py_round_4_unit (p : Q) :
  (0 <= p <= 1)%Q -> (0 <= py_round p 4 <= 1)%Q.
Proof.
  intros Hp. rewrite py_round_4.
  assert (H : 0 <= round_half_even (p * inject_Z 10000) <= 10000).
  { apply round_half_even_range. change (inject_Z 10000) with (10000 # 1)%Q. lra. }
  unfold Qle; simpl. lia.
Qed.

Lemma py_round_4_near (x : Q) :
  (x - (1 # 20000) <= py_round x 4 <= x + (1 # 20000))%Q.
Proof.
  rewrite py_round_4.
  pose proof (round_half_even_near (x * inject_Z 10000)) as H.
  set (n := round_half_even (x * inject_Z 10000)) in *.
  assert (E : (n # 10000 == inject_Z n * (1 # 10000))%Q).
  { unfold Qeq, inject_Z; simpl. lia. }
  rewrite E. change (inject_Z 10000) with (10000 # 1)%Q in H. lra.
Qed.

(** ** Dictionaries *)

Lemma dict_get_None (k : string) (kvs : list (string * value)) :
  dict_get k kvs = None <-> ~ In k (map fst kvs).
Proof.
  induction kvs as [|[k' v] rest IH]; simpl.
  - tauto.
  - destruct (dict_get k rest) as [w|].
    + split; [discriminate|].
      intros H. exfalso. apply H. right.
      destruct (in_dec string_dec k (map fst rest)) as [Hin|Hout]; [exact Hin|].
      apply IH in Hout. discriminate.
    + destruct (String.eqb_spec k k') as [->|Hne].
      * split; [discriminate|]. intros H. exfalso. apply H. now left.
      * split; [|reflexivity].
        intros _ [Heq|Hin]; [congruence|]. now apply IH in Hin.
Qed.

Lemma dict_get_Some_In (k : string) (v : value) (kvs : list (string * value)) :
  dict_get k kvs = Some v -> In (k, v) kvs.
Proof.
  induction kvs as [|[k' w] rest IH]; simpl; [discriminate|].
  destruct (dict_get k rest) as [w'|].
  - intros [= ->]. right. now apply IH.
  - destruct (String.eqb_spec k k') as [->|Hne]; [|discriminate].
    intros [= ->]. now left.
Qed.

Lemma In_dict_get (k : string) (v : value) (kvs : list (string * value)) :
  NoDup (map fst kvs) -> In (k, v) kvs -> dict_get k kvs = Some v.
Proof.
  induction kvs as [|[k' w] rest IH]; simpl; [tauto|].
  intros Hnd Hin. inversion Hnd as [|? ? Hout Hnd']; subst.
  destruct Hin as [[= -> ->]|Hin].
  - apply dict_get_None in Hout. rewrite Hout.
    now rewrite String.eqb_refl.
  - now rewrite (IH Hnd' Hin).
Qed.

(** Members with distinct keys bind the same values in any order. *)
Lemma dict_get_Permutation (k : string) (kvs1 kvs2 : list (string * value)) :
  NoDup (map fst kvs1) -> Permutation kvs1 kvs2 ->
  dict_get k kvs1 = dict_get k kvs2.
Proof.
  intros Hnd Hperm.
  assert (Hnd2 : NoDup (map fst kvs2)).
  { eapply Permutation_NoDup; [|exact Hnd]. now apply Permutation_map. }
  destruct (dict_get k kvs1) as [v|] eqn:H1.
  - symmetry. apply In_dict_get; [exact Hnd2|].
    eapply Permutation_in; [exact Hperm|]. now apply dict_get_Some_In.
  - symmetry. apply dict_get_None. intros Hin.
    apply dict_get_None in H1. apply H1.
    eapply Permutation_in; [|exact Hin].
    apply Permutation_map. now apply Permutation_sym.
Qed.

(** Members under other keys do not change what a key is bound to. *)
Lemma dict_get_app_other (k : string) (kvs extra : list (string * value)) :
  ~ In k (map fst extra) -> dict_get k (kvs ++ extra) = dict_get k kvs.
Proof.
  intros Hout. induction kvs as [|[k' v] rest IH]; simpl.
  - now apply dict_get_None.
  - now rewrite IH.
Qed.

(** ** The feature list *)

Ltac next_key kvs :=
  match goal with
  | |- context [dict_get ?k kvs] =>
      let E := fresh "E" in destruct (dict_get k kvs) eqn:E; simpl
  end.

Lemma features_dict (kvs : list (string * value)) :
  match first_missing kvs with
  | Some k => features (VDict kvs) = Raise (KeyError k)
  | None =>
      exists vs, features (VDict kvs) = Return vs
                 /\ map Some vs = map (fun k => dict_get k kvs) cols
  end.
Proof.
  unfold first_missing, features, cols; simpl.
  do 12 (next_key kvs; [|reflexivity]).
  eexists; split; reflexivity.
Qed.

Lemma features_present (kvs : list (string * value)) :
  (forall k, In k cols -> dict_get k kvs <> None) ->
  exists vs, features (VDict kvs) = Return vs
             /\ map Some vs = map (fun k => dict_get k kvs) cols.
Proof.
  intros Hall. pose proof (features_dict kvs) as H.
  destruct (first_missing kvs) as [k|] eqn:Hfm; [|exact H].
  apply find_some in Hfm. destruct Hfm as [Hin Hk].
  destruct (dict_get k kvs) eqn:E; [discriminate|].
  now apply Hall in Hin.
Qed.

Lemma features_missing (kvs : list (string * value)) (k : string) :
  In k cols -> dict_get k kvs = None ->
  exists k0, In k0 cols /\ dict_get k0 kvs = None
             /\ first_missing kvs = Some k0
             /\ features (VDict kvs) = Raise (KeyError k0).
Proof.
  intros Hin Hk. pose proof (features_dict kvs) as H.
  destruct (first_missing kvs) as [k0|] eqn:Hfm.
  - exists k0. apply find_some in Hfm. destruct Hfm as [Hin0 Hk0].
    destruct (dict_get k0 kvs) eqn:E; [discriminate|]. auto.
  - exfalso. eapply find_none in Hfm; [|exact Hin].
    simpl in Hfm. rewrite Hk in Hfm. discriminate.
Qed.

(** A value that is not a dictionary fails at the first subscription. *)
Lemma features_not_dict (data : value) :
  (forall kvs, data <> VDict kvs) ->
  exists msg, features data = Raise (TypeError msg) /\ msg <> "".
Proof.
  intros Hnd. destruct data; simpl;
    try (eexists; split; [reflexivity|discriminate]).
  now elim (Hnd members).
Qed.

Lemma features_agree (kvs1 kvs2 : list (string * value)) :
  (forall k, In k cols -> dict_get k kvs1 = dict_get k kvs2) ->
  features (VDict kvs1) = features (VDict kvs2).
Proof.
  intros H. unfold features, subscript.
  repeat match goal with
         | |- context [dict_get ?k kvs1] =>
             rewrite (H k) by (unfold cols; simpl; tauto)
         end.
  reflexivity.
Qed.

Lemma features_length (data : value) (vs : list value) :
  features data = Return vs -> List.length vs = List.length cols.
Proof.
  destruct data as [| | | | | |kvs]; try discriminate.
  pose proof (features_dict kvs) as H.
  destruct (first_missing kvs).
  - rewrite H. discriminate.
  - destruct H as (ws & -> & Hmap). intros [= <-].
    rewrite <- (length_map Some), Hmap. apply length_map.
Qed.

(** The frame of line 55 is always built: one row, the twelve columns. *)
Lemma pd_DataFrame_features (data : value) (vs : list value) :
  features data = Return vs ->
  pd_DataFrame [vs] cols = Return (mkDataFrame cols [vs]).
Proof.
  intros H. apply features_length in H.
  unfold pd_DataFrame. simpl find. rewrite H, Nat.eqb_refl. reflexivity.
Qed.

Lemma features_values (kvs : list (string * value)) (vs : list value) :
  map Some vs = map (fun k => dict_get k kvs) cols ->
  features (VDict kvs) = Return vs.
Proof.
  intros H. unfold cols in H. simpl in H.
  do 12 (destruct vs as [|? vs]; [discriminate|]).
  destruct vs; [|discriminate].
  unfold features, subscript.
  injection H as H1 H2 H3 H4 H5 H6 H7 H8 H9 H10 H11 H12.
  now rewrite <- H1, <- H2, <- H3, <- H4, <- H5, <- H6, <- H7, <- H8, <- H9,
    <- H10, <- H11, <- H12.
Qed.

(** ** The handler *)

Section Handler.

Context {Store Scaled : Type} (env : Env Store Scaled).

Lemma predict_with_features (req : request) (data : value) (vs : list value)
  (s : Store) :
  get_json env req = Return data ->
  features data = Return vs ->
  predict env req s = scale_and_infer env vs s.
Proof.
  intros Hj Hf.
  unfold predict, scale_and_infer, predict_body, try_except, bind, lift.
  now rewrite Hj, Hf, (pd_DataFrame_features _ _ Hf).
Qed.

Lemma predict_body_raises (req : request) (s s' : Store) (e : exn) :
  predict_body env req s = (Raise e, s') <-> raises env req s e s'.
Proof.
  unfold predict_body, bind, lift. split.
  - destruct (get_json env req) as [data|e0] eqn:Hj.
    + destruct (features data) as [vs|e1] eqn:Hf.
      * destruct (pd_DataFrame [vs] cols) as [df|e2] eqn:Hd.
        -- destruct (scaler_transform env df s) as [[scaled|e3] s1] eqn:Hs.
           ++ intros Hi. eapply raises_inference; eauto.
           ++ intros [= <- <-]. eapply raises_scaling; eauto.
        -- intros [= <- <-]. eapply raises_record_construction; eauto.
      * intros [= <- <-]. eapply raises_key_extraction; eauto.
    + intros [= <- <-]. now apply raises_get_json.
  - intros H.
    destruct H as [e Hj|data e Hj Hf|data vs e Hj Hf Hd
                  |data vs df e s1 Hj Hf Hd Hs
                  |data vs df scaled s1 e s2 Hj Hf Hd Hs Hi];
      rewrite Hj; try rewrite Hf; try rewrite Hd; try rewrite Hs; auto.
Qed.

(** The body of the [try] returns only what [jsonify] made of a
    prediction. *)
Lemma inference_returns (scaled : Scaled) (s s' : Store) (r : response) :
  inference env scaled s = (Return r, s') ->
  exists s1 labels prediction probas row probability c p,
    model_predict env scaled s = (Return labels, s1)
    /\ index labels 0 = Return prediction
    /\ model_predict_proba env scaled s1 = (Return probas, s')
    /\ index probas 0 = Return row
    /\ index row 1 = Return probability
    /\ py_int env prediction = Return c
    /\ py_float env probability = Return p
    /\ r = mkResponse 200 (VDict [("prediction", VInt c);
                                  ("probability", VFloat (py_round p 4))]).
Proof.
  unfold inference, bind, lift, ret.
  destruct (model_predict env scaled s) as [[labels|?] s1] eqn:Hp; [|discriminate].
  destruct (index labels 0) as [prediction|?] eqn:Hl; [|discriminate].
  destruct (model_predict_proba env scaled s1) as [[probas|?] s2] eqn:Hq; [|discriminate].
  destruct (index probas 0) as [row|?] eqn:Hr; [|discriminate].
  destruct (index row 1) as [probability|?] eqn:Hc; [|discriminate].
  destruct (py_int env prediction) as [c|?] eqn:Hi; [|discriminate].
  destruct (py_float env probability) as [p|?] eqn:Hf; [|discriminate].
  intros [= <- <-].
  exists s1, labels, prediction, probas, row, probability, c, p.
  repeat split; assumption.
Qed.

Lemma predict_total (req : request) (s : Store) :
  exists r s', predict env req s = (Return r, s')
               /\ exists d, body r = VDict d.
Proof.
  unfold predict, try_except.
  destruct (predict_body env req s) as [[r|e] s'] eqn:Hb.
  - exists r, s'. split; [reflexivity|].
    unfold predict_body, bind, lift in Hb.
    destruct (get_json env req); [|discriminate].
    destruct (features _); [|discriminate].
    destruct (pd_DataFrame _ _); [|discriminate].
    destruct (scaler_transform env _ s) as [[scaled|?] s1]; [|discriminate].
    apply inference_returns in Hb.
    destruct Hb as (? & ? & ? & ? & ? & ? & ? & ? & Hb).
    decompose [and] Hb. subst r. eexists; reflexivity.
  - exists (error_response e), s'. split; [reflexivity|].
    eexists; reflexivity.
Qed.

(** C1. A POST /predict request whose JSON body binds the twelve required
    fields, and for which scaling and inference succeed with the output of
    a binary classifier (one label, 0 or 1, and one row of two class
    probabilities, that of class 1 in [0,1]), is answered with status 200
    and a JSON object of exactly the two keys [prediction], that label, and
    [probability], a number of [0,1] with at most four decimals. *)
Theorem predict_success_response
  (req : request) (kvs : list (string * value)) (vs : list value)
  (scaled : Scaled) (c : Z) (p0 p1 : Q) (s s1 s2 s3 : Store) :
  get_json env req = Return (VDict kvs) ->
  map Some vs = map (fun k => dict_get k kvs) cols ->
  scaler_transform env (mkDataFrame cols [vs]) s = (Return scaled, s1) ->
  model_predict env scaled s1 = (Return [NInt c], s2) ->
  model_predict_proba env scaled s2 = (Return [[NFloat p0; NFloat p1]], s3) ->
  c = 0 \/ c = 1 ->
  (0 <= p1 <= 1)%Q ->
  exists (label : Z) (probability : Q) (n : Z),
    predict env req s
    = (Return (mkResponse 200 (VDict [("prediction", VInt label);
                                      ("probability", VFloat probability)])),
       s3)
    /\ (label = 0 \/ label = 1)
    /\ (0 <= probability <= 1)%Q
    /\ probability = (n # 10000).
Proof.
  intros Hj Hvs Hs Hp Hq Hc Hp1.
  exists c, (py_round p1 4), (round_half_even (p1 * inject_Z 10000)).
  split; [|split; [exact Hc|split; [now apply py_round_4_unit|apply py_round_4]]].
  rewrite (predict_with_features req _ vs s Hj (features_values _ _ Hvs)).
  unfold scale_and_infer, try_except, bind. rewrite Hs.
  unfold inference, bind, lift, ret. rewrite Hp. simpl. rewrite Hq. reflexivity.
Qed.

(** C2. A POST /predict request whose JSON object leaves one of the twelve
    required fields unbound is answered with status 400 and the JSON object
    whose only key is [error], holding a non-empty string (the quoted name
    of the first missing field); the answer has no [prediction] and no
    [probability], and the store is as before. *)
Theorem predict_missing_field
  (req : request) (kvs : list (string * value)) (k : string) (s : Store) :
  get_json env req = Return (VDict kvs) ->
  In k cols ->
  dict_get k kvs = None ->
  exists k0 msg,
    first_missing kvs = Some k0
    /\ msg = "'" ++ k0 ++ "'"
    /\ msg <> ""
    /\ predict env req s
       = (Return (mkResponse 400 (VDict [("error", VStr msg)])), s)
    /\ dict_get "prediction" [("error", VStr msg)] = None
    /\ dict_get "probability" [("error", VStr msg)] = None.
Proof.
  intros Hj Hin Hk.
  destruct (features_missing kvs k Hin Hk) as (k0 & _ & _ & Hfm & Hf).
  exists k0, ("'" ++ k0 ++ "'").
  repeat split; try assumption; try discriminate.
  unfold predict, try_except, predict_body, bind, lift. now rewrite Hj, Hf.
Qed.

(** C3. Whatever exception leaves the body of the handler, raised while
    reading the body, extracting the keys, constructing the record,
    scaling or inferring, the handler answers with status 400 and the JSON
    object [{"error": str(e)}]; and every request is answered with a JSON
    object, never with an exception. *)
Theorem predict_error_envelope
  (req : request) (s s' : Store) (e : exn) :
  raises env req s e s' ->
  predict env req s
  = (Return (mkResponse 400 (VDict [("error", VStr (exn_str e))])), s')
  /\ (forall req0 s0, exists r s1 d,
        predict env req0 s0 = (Return r, s1) /\ body r = VDict d).
Proof.
  intros H. split.
  - apply predict_body_raises in H.
    unfold predict, try_except. now rewrite H.
  - intros req0 s0. destruct (predict_total req0 s0) as (r & s1 & Hr & d & Hd).
    now exists r, s1, d.
Qed.

(** C4. For a POST /predict request whose JSON object binds the twelve
    required fields, the handler builds the one-row frame whose columns are
    the twelve names in the fixed order and whose row holds the values
    bound to them, and what it answers is what follows from giving this
    frame to the scaler's [transform]. *)
Theorem predict_scaler_argument
  (req : request) (kvs : list (string * value)) (s : Store) :
  get_json env req = Return (VDict kvs) ->
  (forall k, In k cols -> dict_get k kvs <> None) ->
  exists vs df,
    map Some vs
    = map (fun k => dict_get k kvs)
        [ "age"; "anaemia"; "creatinine_phosphokinase"; "diabetes";
          "ejection_fraction"; "high_blood_pressure"; "platelets";
          "serum_creatinine"; "serum_sodium"; "sex"; "smoking"; "time" ]
    /\ df = mkDataFrame
              [ "age"; "anaemia"; "creatinine_phosphokinase"; "diabetes";
                "ejection_fraction"; "high_blood_pressure"; "platelets";
                "serum_creatinine"; "serum_sodium"; "sex"; "smoking"; "time" ]
              [vs]
    /\ predict env req s
       = try_except
           (scaled_features <- scaler_transform env df ;;
            inference env scaled_features)
           (fun e => ret (error_response e)) s.
Proof.
  intros Hj Hall.
  destruct (features_present kvs Hall) as (vs & Hf & Hvs).
  exists vs, (mkDataFrame cols [vs]). split; [exact Hvs|]. split; [reflexivity|].
  apply (predict_with_features req _ vs s Hj Hf).
Qed.

Lemma predict_returns_200 (req : request) (s s' : Store) (r : response) :
  predict env req s = (Return r, s') ->
  status r = 200 ->
  exists df scaled s1,
    scaler_transform env df s = (Return scaled, s1)
    /\ inference env scaled s1 = (Return r, s').
Proof.
  unfold predict, try_except, predict_body, bind, lift, ret.
  destruct (get_json env req) as [data|?];
    [|intros [= <- <-]; discriminate].
  destruct (features data) as [vs|?];
    [|intros [= <- <-]; discriminate].
  destruct (pd_DataFrame [vs] cols) as [df|?];
    [|intros [= <- <-]; discriminate].
  destruct (scaler_transform env df s) as [[scaled|?] s1] eqn:Hs;
    [|intros [= <- <-]; discriminate].
  destruct (inference env scaled s1) as [[r0|?] s2] eqn:Hi;
    [|intros [= <- <-]; discriminate].
  intros [= <- <-] _. now exists df, scaled, s1.
Qed.

(** C5. In every answer of status 200, [prediction] is [int] of the first
    element of what [model.predict] returned and [probability] is [float]
    of the entry of index 1 in the first row of what [model.predict_proba]
    returned, rounded to four decimals: a multiple of 1/10000 no further
    than 1/20000 from it. *)
Theorem predict_success_values
  (req : request) (s s' : Store) (r : response) :
  predict env req s = (Return r, s') ->
  status r = 200 ->
  exists df scaled s1 s2 labels prediction probas row probability c p n,
    scaler_transform env df s = (Return scaled, s1)
    /\ model_predict env scaled s1 = (Return labels, s2)
    /\ index labels 0 = Return prediction
    /\ model_predict_proba env scaled s2 = (Return probas, s')
    /\ index probas 0 = Return row
    /\ index row 1 = Return probability
    /\ py_int env prediction = Return c
    /\ py_float env probability = Return p
    /\ body r = VDict [("prediction", VInt c);
                       ("probability", VFloat (py_round p 4))]
    /\ py_round p 4 = (n # 10000)
    /\ (p - (1 # 20000) <= py_round p 4 <= p + (1 # 20000))%Q.
Proof.
  intros Hr H200.
  destruct (predict_returns_200 req s s' r Hr H200) as (df & scaled & s1 & Hs & Hi).
  destruct (inference_returns scaled s1 s' r Hi)
    as (s2 & labels & prediction & probas & row & probability & c & p & H).
  decompose [and] H. subst r.
  exists df, scaled, s1, s2, labels, prediction, probas, row, probability, c, p,
    (round_half_even (p * inject_Z 10000)).
  repeat split; try assumption; try reflexivity; apply py_round_4_near.
Qed.

(** C6. A GET request to [/] runs [home], whatever its query string and
    its body: the answer is status 200 with the fixed JSON object, no
    exception is raised and the store is left as it was. *)
Theorem home_fixed_response (req : request) (s : Store) :
  req_method req = GET ->
  req_path req = "/" ->
  exists view,
    dispatch_request env req = Some view
    /\ view s
       = (Return (mkResponse 200
                    (VDict [("message",
                             VStr "Heart Disease Prediction API is running!")])),
          s).
Proof.
  intros Hm Hp. unfold dispatch_request, match_request.
  rewrite Hm, Hp. simpl. eexists. split; reflexivity.
Qed.

Lemma inference_read_only (scaled : Scaled) (s : Store) :
  immutable_artifacts env -> snd (inference env scaled s) = s.
Proof.
  intros (_ & Hp & Hq). unfold inference, bind, lift, ret.
  pose proof (Hp scaled s) as E1.
  destruct (model_predict env scaled s) as [[labels|?] s1]; simpl in E1; subst s1;
    [|reflexivity].
  destruct (index labels 0); [|reflexivity].
  pose proof (Hq scaled s) as E2.
  destruct (model_predict_proba env scaled s) as [[probas|?] s2]; simpl in E2;
    subst s2; [|reflexivity].
  destruct (index probas 0) as [row|]; [|reflexivity].
  destruct (index row 1); [|reflexivity].
  destruct (py_int env _); [|reflexivity].
  destruct (py_float env _); reflexivity.
Qed.

(** With immutable artifacts no request changes the store. *)
Lemma predict_read_only (req : request) (s : Store) :
  immutable_artifacts env -> snd (predict env req s) = s.
Proof.
  intros Him. pose proof Him as (Ht & _).
  unfold predict, try_except, predict_body, bind, lift, ret.
  destruct (get_json env req) as [data|?]; [|reflexivity].
  destruct (features data) as [vs|?]; [|reflexivity].
  destruct (pd_DataFrame [vs] cols) as [df|?]; [|reflexivity].
  pose proof (Ht df s) as E1.
  destruct (scaler_transform env df s) as [[scaled|?] s1]; simpl in E1; subst s1;
    [|reflexivity].
  pose proof (inference_read_only scaled s Him) as E2.
  destruct (inference env scaled s) as [[r|?] s2]; simpl in E2; now subst s2.
Qed.

(** C7. With immutable artifacts, the same request issued a second time,
    from the store the first one left, gets the same answer: same outcome,
    hence same status and same body, and same store. *)
Theorem predict_deterministic (req : request) (s : Store) :
  immutable_artifacts env ->
  predict env req (snd (predict env req s)) = predict env req s.
Proof.
  intros Him. now rewrite (predict_read_only req s Him).
Qed.

(** The handler reads the request through the twelve bindings only. *)
Lemma predict_agree
  (req1 req2 : request) (kvs1 kvs2 : list (string * value)) (s : Store) :
  req_is_json req1 = req_is_json req2 ->
  req_data req1 = Parsed (VDict kvs1) ->
  req_data req2 = Parsed (VDict kvs2) ->
  (forall k, In k cols -> dict_get k kvs1 = dict_get k kvs2) ->
  predict env req1 s = predict env req2 s.
Proof.
  intros Hj H1 H2 Hagree.
  unfold predict, try_except, predict_body, bind, lift, get_json.
  rewrite Hj, H1, H2. destruct (req_is_json req2); [|reflexivity].
  now rewrite (features_agree kvs1 kvs2 Hagree).
Qed.

(** C8. Two requests whose JSON objects have the same members, with
    distinct keys, listed in different orders get the same answer. *)
Theorem predict_key_order
  (req1 req2 : request) (kvs1 kvs2 : list (string * value)) (s : Store) :
  req_is_json req1 = req_is_json req2 ->
  req_data req1 = Parsed (VDict kvs1) ->
  req_data req2 = Parsed (VDict kvs2) ->
  NoDup (map fst kvs1) ->
  Permutation kvs1 kvs2 ->
  predict env req1 s = predict env req2 s.
Proof.
  intros Hj H1 H2 Hnd Hperm.
  apply (predict_agree req1 req2 kvs1 kvs2 s Hj H1 H2).
  intros k _. now apply dict_get_Permutation.
Qed.

(** C9. Two requests whose JSON objects agree on what the twelve required
    keys are bound to get the same answer, whatever other members either
    of them has. *)
Theorem predict_ignores_extra_keys
  (req1 req2 : request) (kvs1 kvs2 : list (string * value)) (s : Store) :
  req_is_json req1 = req_is_json req2 ->
  req_data req1 = Parsed (VDict kvs1) ->
  req_data req2 = Parsed (VDict kvs2) ->
  (forall k, In k cols -> dict_get k kvs1 = dict_get k kvs2) ->
  predict env req1 s = predict env req2 s.
Proof.
  exact (predict_agree req1 req2 kvs1 kvs2 s).
Qed.

(** C10. A POST /predict request whose body is not a JSON object (another
    content type, a body that does not parse, or a JSON array, number,
    string, boolean or null) is answered with status 400 and the JSON
    object [{"error": msg}], [msg] not empty; no exception leaves the
    handler and the store is as before. *)
Theorem predict_non_object_body (req : request) (s : Store) :
  json_object_body req = false ->
  exists msg,
    predict env req s = (Return (mkResponse 400 (VDict [("error", VStr msg)])), s)
    /\ msg <> "".
Proof.
  unfold json_object_body. intros H.
  unfold predict, try_except, predict_body, bind, lift, get_json.
  destruct (req_is_json req); simpl in H.
  - destruct (req_data req) as [data|detail].
    + destruct (features_not_dict data) as (msg & Hf & Hm).
      { intros kvs ->. discriminate. }
      rewrite Hf. exists msg. now split.
    + eexists. split; [reflexivity|]. simpl. discriminate.
  - eexists. split; [reflexivity|]. simpl. discriminate.
Qed.

End Handler.

(** ** The statements on concrete artifacts *)

Lemma demo_env_immutable : immutable_artifacts demo_env.
Proof.
  repeat split; intros a s; try reflexivity.
  unfold demo_env, scaler_transform, demo_transform, lift, raise.
  destruct (df_rows a) as [|row [|]]; reflexivity.
Qed.

Lemma scenario_binds_all :
  forall k, In k cols -> dict_get k scenario_members <> None.
Proof.
  intros k Hk. simpl in Hk.
  repeat (destruct Hk as [<-|Hk]; [discriminate|]). contradiction.
Qed.

Lemma scenario_keys_distinct : NoDup (map fst scenario_members).
Proof.
  simpl.
  repeat (constructor;
          [simpl; intros H;
           repeat (destruct H as [H|H]; [discriminate|]); contradiction|]).
  constructor.
Qed.

Lemma predict_success_response_witness :
  exists label probability n,
    predict demo_env scenario_request 0%nat
    = (Return (mkResponse 200 (VDict [("prediction", VInt label);
                                      ("probability", VFloat probability)])),
       0%nat)
    /\ (label = 0 \/ label = 1)
    /\ (0 <= probability <= 1)%Q
    /\ probability = (n # 10000).
Proof.
  apply (predict_success_response demo_env scenario_request scenario_members
           scenario_row scenario_scaled 1 (12345 # 100000) (87655 # 100000)
           0%nat 0%nat 0%nat 0%nat); try reflexivity.
  - now right.
  - split; unfold Qle; simpl; lia.
Defined.

Lemma predict_missing_field_witness :
  exists k0 msg,
    first_missing (tl scenario_members) = Some k0
    /\ msg = "'" ++ k0 ++ "'"
    /\ msg <> ""
    /\ predict demo_env scenario_without_age 7%nat
       = (Return (mkResponse 400 (VDict [("error", VStr msg)])), 7%nat)
    /\ dict_get "prediction" [("error", VStr msg)] = None
    /\ dict_get "probability" [("error", VStr msg)] = None.
Proof.
  apply (predict_missing_field demo_env scenario_without_age
           (tl scenario_members) "age" 7%nat).
  - reflexivity.
  - simpl. now left.
  - reflexivity.
Defined.

Lemma predict_error_envelope_witness :
  predict demo_env scenario_bad_age 0%nat
  = (Return (mkResponse 400
               (VDict [("error", VStr "could not convert str to float")])),
     0%nat)
  /\ (forall req0 s0, exists r s1 d,
        predict demo_env req0 s0 = (Return r, s1) /\ body r = VDict d).
Proof.
  apply (predict_error_envelope demo_env scenario_bad_age 0%nat 0%nat
           (ValueError "could not convert str to float")).
  eapply raises_scaling; reflexivity.
Defined.

Lemma predict_scaler_argument_witness :
  exists vs df,
    map Some vs
    = map (fun k => dict_get k scenario_members)
        [ "age"; "anaemia"; "creatinine_phosphokinase"; "diabetes";
          "ejection_fraction"; "high_blood_pressure"; "platelets";
          "serum_creatinine"; "serum_sodium"; "sex"; "smoking"; "time" ]
    /\ df = mkDataFrame
              [ "age"; "anaemia"; "creatinine_phosphokinase"; "diabetes";
                "ejection_fraction"; "high_blood_pressure"; "platelets";
                "serum_creatinine"; "serum_sodium"; "sex"; "smoking"; "time" ]
              [vs]
    /\ predict spy_env scenario_request []
       = try_except
           (scaled_features <- scaler_transform spy_env df ;;
            inference spy_env scaled_features)
           (fun e => ret (error_response e)) [].
Proof.
  apply (predict_scaler_argument spy_env scenario_request scenario_members []).
  - reflexivity.
  - exact scenario_binds_all.
Defined.

Lemma predict_success_values_witness :
  exists df scaled s1 s2 labels prediction probas row probability c p n,
    scaler_transform demo_env df 0%nat = (Return scaled, s1)
    /\ model_predict demo_env scaled s1 = (Return labels, s2)
    /\ index labels 0 = Return prediction
    /\ model_predict_proba demo_env scaled s2 = (Return probas, 0%nat)
    /\ index probas 0 = Return row
    /\ index row 1 = Return probability
    /\ py_int demo_env prediction = Return c
    /\ py_float demo_env probability = Return p
    /\ body scenario_response
       = VDict [("prediction", VInt c); ("probability", VFloat (py_round p 4))]
    /\ py_round p 4 = (n # 10000)
    /\ (p - (1 # 20000) <= py_round p 4 <= p + (1 # 20000))%Q.
Proof.
  apply (predict_success_values demo_env scenario_request 0%nat 0%nat
           scenario_response); reflexivity.
Defined.

Lemma home_fixed_response_witness :
  exists view,
    dispatch_request demo_env home_request = Some view
    /\ view 3%nat
       = (Return (mkResponse 200
                    (VDict [("message",
                             VStr "Heart Disease Prediction API is running!")])),
          3%nat).
Proof.
  apply (home_fixed_response demo_env home_request 3%nat); reflexivity.
Defined.

Lemma predict_deterministic_witness :
  predict demo_env scenario_request (snd (predict demo_env scenario_request 0%nat))
  = predict demo_env scenario_request 0%nat.
Proof.
  apply (predict_deterministic demo_env scenario_request 0%nat).
  exact demo_env_immutable.
Defined.

Lemma predict_key_order_witness :
  predict demo_env scenario_request 0%nat
  = predict demo_env scenario_reversed 0%nat.
Proof.
  apply (predict_key_order demo_env scenario_request scenario_reversed
           scenario_members (rev scenario_members) 0%nat); try reflexivity.
  - exact scenario_keys_distinct.
  - apply Permutation_rev.
Defined.

Lemma predict_ignores_extra_keys_witness :
  predict demo_env scenario_request 0%nat
  = predict demo_env scenario_with_extras 0%nat.
Proof.
  apply (predict_ignores_extra_keys demo_env scenario_request scenario_with_extras
           scenario_members
           (("patient", VStr "anonymous") :: scenario_members
            ++ [("weight", VInt 80)])%list 0%nat); try reflexivity.
  intros k Hk. simpl in Hk.
  repeat (destruct Hk as [<-|Hk]; [reflexivity|]). contradiction.
Defined.

Lemma predict_non_object_body_witness :
  exists msg,
    predict demo_env (post_predict (Parsed (VList [VInt 75; VInt 0]))) 0%nat
    = (Return (mkResponse 400 (VDict [("error", VStr msg)])), 0%nat)
    /\ msg <> "".
Proof.
  apply (predict_non_object_body demo_env
           (post_predict (Parsed (VList [VInt 75; VInt 0]))) 0%nat).
  reflexivity.
Defined.

(** ** Runs *)

Example scenario_run :
  predict demo_env scenario_request 0%nat = (Return scenario_response, 0%nat).
Proof. reflexivity. Qed.

Example scenario_without_age_run :
  predict demo_env scenario_without_age 0%nat
  = (Return (mkResponse 400 (VDict [("error", VStr "'age'")])), 0%nat).
Proof. reflexivity. Qed.

(** The recording scaler has been given the frame of the scenario, once. *)
Example scenario_frame_recorded :
  snd (predict spy_env scenario_request []) = [scenario_frame].
Proof. reflexivity. Qed.

Example malformed_body_run :
  predict spy_env (post_predict (Malformed "Expecting value")) []
  = (Return (mkResponse 400
               (VDict [("error",
                        VStr "400 Bad Request: The browser (or proxy) sent a request that this server could not understand.")])),
     []).
Proof. reflexivity. Qed.

Example null_body_run :
  predict demo_env (post_predict (Parsed VNone)) 0%nat
  = (Return (mkResponse 400
               (VDict [("error", VStr "'NoneType' object is not subscriptable")])),
     0%nat).
Proof. reflexivity. Qed.

(** Ties go to the even digit. *)
Example py_round_ties :
  py_round (12345 # 100000) 4 = (1234 # 10000)
  /\ py_round (12355 # 100000) 4 = (1236 # 10000)
  /\ py_round (99995 # 100000) 4 = (10000 # 10000).
Proof. repeat split. Qed.

(** Without immutability the second answer can differ from the first: the
    drifting classifier changes its label from one call to the next. *)
Remark drifting_env_not_deterministic :
  predict drifting_env scenario_request
    (snd (predict drifting_env scenario_request 0%nat))
  <> predict drifting_env scenario_request 0%nat.
Proof. discriminate. Qed.

(** POST to [/] and GET to [/predict] reach no view. *)
Example other_methods_run :
  dispatch_request demo_env (mkRequest POST "/" [] true (Parsed VNone)) = None
  /\ dispatch_request demo_env (mkRequest GET "/predict" [] false (Parsed VNone))
     = None.
Proof. split; reflexivity. Qed.

(** * Further properties of the module *)

(** ** Rounding, further *)

Ltac compare_facts :=
  repeat match goal with
         | H : Qcompare _ _ = Eq |- _ => apply Qeq_alt in H
         | H : Qcompare _ _ = Lt |- _ => apply Qlt_alt in H
         | H : Qcompare _ _ = Gt |- _ => apply Qgt_alt in H
         end.

Lemma round_half_even_monotone (x y : Q) :
  (x <= y)%Q -> round_half_even x <= round_half_even y.
Proof.
  intros Hxy.
  assert (Hf : Qfloor x <= Qfloor y) by now apply Qfloor_resp_le.
  destruct (Z.eq_dec (Qfloor x) (Qfloor y)) as [E|N].
  - unfold round_half_even. rewrite <- E.
    destruct (Qcompare (x - inject_Z (Qfloor x)) (1 # 2)) eqn:Cx;
      destruct (Qcompare (y - inject_Z (Qfloor x)) (1 # 2)) eqn:Cy;
      try destruct (Z.even (Qfloor x)); try lia;
      compare_facts; exfalso; lra.
  - destruct (round_half_even_floor x), (round_half_even_floor y); lia.
Qed.

Lemma round_half_even_integer (q : Q) (z : Z) :
  (q == inject_Z z)%Q -> round_half_even q = z.
Proof.
  intros H. unfold round_half_even.
  assert (Hf : Qfloor q = z) by (rewrite H; apply Qfloor_Z).
  rewrite Hf.
  assert (C : Qcompare (q - inject_Z z) (1 # 2) = Lt) by (apply -> Qlt_alt; rewrite H; unfold Qminus; rewrite Qplus_opp_r; reflexivity).
  now rewrite C.
Qed.

(** X8. Rounding keeps the order: of two probabilities the larger one is
    never reported as the smaller, whatever the number of digits. *)
Theorem py_round_monotone (x y : Q) (ndigits : nat) :
  (x <= y)%Q -> (py_round x ndigits <= py_round y ndigits)%Q.
Proof.
  intros Hxy. unfold py_round.
  set (d := Z.to_pos (10 ^ Z.of_nat ndigits)).
  assert (H : round_half_even (x * inject_Z (Zpos d))
              <= round_half_even (y * inject_Z (Zpos d))).
  { apply round_half_even_monotone. apply Qmult_le_compat_r; [exact Hxy|].
    unfold Qle; simpl; lia. }
  unfold Qle; simpl. nia.
Qed.

(** X9. A number that has at most [ndigits] decimals is returned as it is:
    rounding to four digits leaves every multiple of 1/10000 unchanged. *)
Theorem py_round_exact (z : Z) (ndigits : nat) :
  py_round (z # Z.to_pos (10 ^ Z.of_nat ndigits)) ndigits
  = (z # Z.to_pos (10 ^ Z.of_nat ndigits)).
Proof.
  unfold py_round. f_equal. apply round_half_even_integer.
  unfold Qeq, Qmult, inject_Z; cbn [Qnum Qden].
  rewrite Pos.mul_1_r. ring.
Qed.

(** ** Routing *)


(** ** The feature list, further *)

(** X5. Twelve values sent under the twelve names, in the order of the
    columns, are extracted as they were sent: the names are distinct, so no
    subscription reads the value of another. *)
Theorem features_combine (vs : list value) :
  List.length vs = 12%nat ->
  features (VDict (combine cols vs)) = Return vs.
Proof.
  intros H.
  do 12 (destruct vs as [|? vs]; [discriminate|]).
  destruct vs; [reflexivity|discriminate].
Qed.

Lemma dict_get_override (k k' : string) (v : value) (kvs : list (string * value)) :
  dict_get k' (kvs ++ [(k, v)])
  = if String.eqb k' k then Some v else dict_get k' kvs.
Proof.
  induction kvs as [|[k0 v0] rest IH]; simpl.
  - reflexivity.
  - rewrite IH. destruct (String.eqb k' k); reflexivity.
Qed.

Lemma dict_get_filter_other (k k' : string) (kvs : list (string * value)) :
  k' <> k ->
  dict_get k' (filter (fun m => negb (String.eqb (fst m) k)) kvs) = dict_get k' kvs.
Proof.
  intros Hne. induction kvs as [|[k0 v0] rest IH]; simpl; [reflexivity|].
  destruct (String.eqb_spec k0 k) as [->|N]; simpl.
  - rewrite IH. destruct (dict_get k' rest); [reflexivity|].
    destruct (String.eqb_spec k' k); [contradiction|reflexivity].
  - now rewrite IH.
Qed.

Section Observations.

Context {Store Scaled : Type} (env : Env Store Scaled).

(** X2. Every answer of the handler has one of two shapes: status 200 with
    the object of exactly [prediction], an integer, and [probability], a
    float, when the body of the [try] returned; status 400 with the object
    of exactly [error], the text of the exception, when it raised. *)
Theorem predict_two_shapes (req : request) (s : Store) :
  exists r s',
    predict env req s = (Return r, s')
    /\ ((status r = 200
         /\ predict_body env req s = (Return r, s')
         /\ exists c p, body r = VDict [("prediction", VInt c);
                                        ("probability", VFloat p)])
        \/ (status r = 400
            /\ exists e, raises env req s e s'
                         /\ body r = VDict [("error", VStr (exn_str e))])).
Proof.
  unfold predict, try_except.
  destruct (predict_body env req s) as [[r|e] s'] eqn:Hb.
  - exists r, s'. split; [reflexivity|]. left.
    pose proof Hb as Hb'.
    unfold predict_body, bind, lift in Hb.
    destruct (get_json env req); [|discriminate].
    destruct (features _); [|discriminate].
    destruct (pd_DataFrame _ _); [|discriminate].
    destruct (scaler_transform env _ s) as [[scaled|?] s1]; [|discriminate].
    apply inference_returns in Hb.
    destruct Hb as (? & ? & ? & ? & ? & ? & c & p & Hb).
    decompose [and] Hb. subst r. repeat split. now exists c, (py_round p 4).
  - exists (error_response e), s'. split; [reflexivity|]. right.
    split; [reflexivity|]. exists e. split; [|reflexivity].
    now apply predict_body_raises.
Qed.

(** Before the scaler is reached nothing is written in the journal. *)
Lemma journal_before_scaling (req : request) (e : exn)
  (s : Store) (log : list (call Scaled)) :
  get_json env req = Raise e
  \/ (exists data, get_json env req = Return data /\ features data = Raise e) ->
  predict (journaled env) req (s, log) = (Return (error_response e), (s, log)).
Proof.
  unfold predict, try_except, predict_body, bind, lift.
  change (get_json (journaled env) req) with (get_json env req).
  intros [Hj|(data & Hj & Hf)]; rewrite Hj; [reflexivity|now rewrite Hf].
Qed.

(** From the scaler on: the journal of a request whose features were built. *)
Lemma journal_from_scaling (req : request) (data : value) (vs : list value)
  (s : Store) :
  get_json env req = Return data ->
  features data = Return vs ->
  exists o s' log,
    predict (journaled env) req (s, [])
    = (o, (s', call_transform (mkDataFrame cols [vs]) :: log))
    /\ predict env req s = (o, s')
    /\ ((log = []
         /\ exists e, scaler_transform env (mkDataFrame cols [vs]) s = (Raise e, s'))
        \/ exists x s1,
             scaler_transform env (mkDataFrame cols [vs]) s = (Return x, s1)
             /\ (log = [call_predict x]
                 \/ log = [call_predict x; call_predict_proba x])).
Proof.
  intros Hj Hf.
  rewrite (predict_with_features env req data vs s Hj Hf).
  assert (Hj' : get_json (journaled env) req = Return data) by exact Hj.
  rewrite (predict_with_features (journaled env) req data vs (s, []) Hj' Hf).
  unfold scale_and_infer, try_except, bind.
  cbn [scaler_transform journaled journal fst snd app].
  destruct (scaler_transform env (mkDataFrame cols [vs]) s) as [[x|e] s1] eqn:Hs;
    cbn [fst snd].
  2:{ eexists _, _, _. split; [reflexivity|]. split; [reflexivity|].
      left. split; [reflexivity|]. now exists e. }
  unfold inference, bind, lift, ret.
  cbn [model_predict model_predict_proba journaled journal fst snd app].
  change (py_int (journaled env)) with (py_int env).
  change (py_float (journaled env)) with (py_float env).
  destruct (model_predict env x s1) as [[labels|e] s2]; cbn [fst snd app].
  2:{ eexists _, _, _. split; [reflexivity|]. split; [reflexivity|].
      right. exists x, s1. split; [reflexivity|]. now left. }
  destruct (index labels 0) as [prediction|e].
  2:{ eexists _, _, _. split; [reflexivity|]. split; [reflexivity|].
      right. exists x, s1. split; [reflexivity|]. now left. }
  destruct (model_predict_proba env x s2) as [[probas|e] s3]; cbn [fst snd app].
  2:{ eexists _, _, _. split; [reflexivity|]. split; [reflexivity|].
      right. exists x, s1. split; [reflexivity|]. now right. }
  destruct (index probas 0) as [row|e];
    [destruct (index row 1) as [probability|e];
     [destruct (py_int env prediction) as [c|e];
      [destruct (py_float env probability) as [p|e]|]|]|];
    (eexists _, _, _; split; [reflexivity|]; split; [reflexivity|];
     right; exists x, s1; split; [reflexivity|]; now right).
Qed.

(** X3. What the artifacts are asked during one request: nothing, or
    [transform] once on the one-row frame of the twelve columns, then
    [predict] once, then [predict_proba] once, both on what [transform]
    returned; a later call is never made without the earlier ones, and
    keeping the journal changes neither the answer nor the store. *)
Theorem predict_call_protocol (req : request) (s : Store) :
  exists o s' log,
    predict (journaled env) req (s, []) = (o, (s', log))
    /\ predict env req s = (o, s')
    /\ (log = []
        \/ exists vs,
             List.length vs = 12%nat
             /\ (log = [call_transform (mkDataFrame cols [vs])]
                 \/ exists x s1,
                      scaler_transform env (mkDataFrame cols [vs]) s = (Return x, s1)
                      /\ (log = [call_transform (mkDataFrame cols [vs]);
                                 call_predict x]
                          \/ log = [call_transform (mkDataFrame cols [vs]);
                                    call_predict x; call_predict_proba x]))).
Proof.
  destruct (get_json env req) as [data|e] eqn:Hj.
  - destruct (features data) as [vs|e] eqn:Hf.
    + destruct (journal_from_scaling req data vs s Hj Hf)
        as (o & s' & log & H1 & H2 & H3).
      exists o, s', (call_transform (mkDataFrame cols [vs]) :: log).
      split; [exact H1|]. split; [exact H2|]. right. exists vs.
      split; [exact (features_length data vs Hf)|].
      destruct H3 as [[-> _]|(x & s1 & Hs & [->| ->])].
      * now left.
      * right. exists x, s1. split; [exact Hs|]. now left.
      * right. exists x, s1. split; [exact Hs|]. now right.
    + exists (Return (error_response e)), s, []. split.
      * apply journal_before_scaling. right. now exists data.
      * split; [|now left].
        unfold predict, try_except, predict_body, bind, lift. now rewrite Hj, Hf.
  - exists (Return (error_response e)), s, []. split.
    + apply journal_before_scaling. now left.
    + split; [|now left].
      unfold predict, try_except, predict_body, bind, lift. now rewrite Hj.
Qed.

(** X4. The scaler is called exactly when the body is a JSON object that
    binds the twelve fields: otherwise no artifact is asked anything. *)
Theorem scaler_called_iff_fields_bound (req : request) (s : Store) :
  snd (snd (predict (journaled env) req (s, []))) <> []
  <-> exists kvs, get_json env req = Return (VDict kvs)
                  /\ forall k, In k cols -> dict_get k kvs <> None.
Proof.
  split.
  - intros Hlog.
    destruct (get_json env req) as [data|e] eqn:Hj.
    2:{ rewrite (journal_before_scaling req e s []) in Hlog by now left.
        now elim Hlog. }
    destruct (features data) as [vs|e] eqn:Hf.
    2:{ rewrite (journal_before_scaling req e s []) in Hlog
          by (right; now exists data).
        now elim Hlog. }
    destruct data as [| | | | | |kvs]; try discriminate.
    exists kvs. split; [reflexivity|]. intros k Hk Hnone.
    destruct (features_missing kvs k Hk Hnone) as (k0 & _ & _ & _ & Hf').
    rewrite Hf' in Hf. discriminate.
  - intros (kvs & Hj & Hall).
    destruct (features_present kvs Hall) as (vs & Hf & _).
    destruct (journal_from_scaling req _ vs s Hj Hf) as (o & s' & log & H1 & _).
    rewrite H1. discriminate.
Qed.

(** X7. When the first row of [predict_proba] has fewer than two entries,
    as for a classifier fitted on a single class, the subscription [[1]] of
    line 62 is out of bounds and the request is answered with status 400
    and the text of that error, after both methods of the model have run. *)
Theorem predict_proba_row_too_short
  (req : request) (kvs : list (string * value)) (vs : list value)
  (scaled : Scaled) (label : scalar) (labels row : list scalar)
  (rest : list (list scalar)) (s s1 s2 s3 : Store) :
  get_json env req = Return (VDict kvs) ->
  map Some vs = map (fun k => dict_get k kvs) cols ->
  scaler_transform env (mkDataFrame cols [vs]) s = (Return scaled, s1) ->
  model_predict env scaled s1 = (Return (label :: labels), s2) ->
  model_predict_proba env scaled s2 = (Return (row :: rest), s3) ->
  (List.length row <= 1)%nat ->
  predict env req s
  = (Return (mkResponse 400
               (VDict [("error",
                        VStr ("index 1 is out of bounds for axis 0 with size "
                              ++ string_of_nat (List.length row)))])),
     s3).
Proof.
  intros Hj Hvs Hs Hp Hq Hlen.
  rewrite (predict_with_features env req _ vs s Hj (features_values _ _ Hvs)).
  unfold scale_and_infer, try_except, bind. rewrite Hs.
  unfold inference, bind, lift, ret. rewrite Hp. cbn [index nth_error].
  rewrite Hq. cbn [index nth_error].
  destruct row as [|a [|b row]]; [reflexivity|reflexivity|simpl in Hlen; lia].
Qed.

(** X6. A member written again at the end of the object replaces every
    earlier member of the same key: the answer is the one of the object
    without those earlier members. *)
Theorem predict_last_member_wins
  (req1 req2 : request) (kvs : list (string * value)) (k : string) (v : value)
  (s : Store) :
  req_is_json req1 = req_is_json req2 ->
  req_data req1 = Parsed (VDict (kvs ++ [(k, v)])) ->
  req_data req2
  = Parsed (VDict (filter (fun m => negb (String.eqb (fst m) k)) kvs ++ [(k, v)])) ->
  predict env req1 s = predict env req2 s.
Proof.
  intros Hj H1 H2.
  apply (predict_agree env req1 req2 _ _ s Hj H1 H2).
  intros k' _. rewrite !dict_get_override.
  destruct (String.eqb_spec k' k) as [_|Hne]; [reflexivity|].
  symmetry. now apply dict_get_filter_other.
Qed.

Lemma view_read_only (e : endpoint) (req : request) (s : Store) :
  immutable_artifacts env -> snd (view_function env e req s) = s.
Proof.
  intros Him. destruct e; [reflexivity|]. now apply predict_read_only.
Qed.

(** X10. With immutable artifacts, requests served one after the other are
    answered as each would be alone, and the store is left as it was: no
    answer depends on the requests served before. *)
Theorem serve_isolated (reqs : list request) (s : Store) :
  immutable_artifacts env ->
  serve env reqs s = (map (served_alone env s) reqs, s).
Proof.
  intros Him. induction reqs as [|req rest IH]; [reflexivity|].
  cbn [serve map]. unfold served_alone at 1.
  unfold dispatch_request.
  destruct (match_request req) as [e|].
  - rewrite (view_read_only e req s Him), IH. reflexivity.
  - rewrite IH. reflexivity.
Qed.

End Observations.

(** ** The further statements on concrete artifacts *)

Lemma py_round_monotone_witness :
  (py_round (1 # 3) 4 <= py_round (1 # 2) 4)%Q.
Proof.
  apply (py_round_monotone (1 # 3) (1 # 2) 4).
  unfold Qle; simpl; lia.
Defined.

Lemma features_combine_witness :
  features (VDict (combine cols scenario_row)) = Return scenario_row.
Proof.
  apply (features_combine scenario_row). reflexivity.
Defined.

Lemma predict_proba_row_too_short_witness :
  predict single_class_env scenario_request 0%nat
  = (Return (mkResponse 400
               (VDict [("error",
                        VStr ("index 1 is out of bounds for axis 0 with size "
                              ++ string_of_nat (List.length [NFloat 1])))])),
     0%nat).
Proof.
  apply (predict_proba_row_too_short single_class_env scenario_request
           scenario_members scenario_row scenario_scaled (NInt 1) [] [NFloat 1] []
           0%nat 0%nat 0%nat 0%nat); first [reflexivity|simpl; lia].
Defined.

Lemma predict_last_member_wins_witness :
  predict demo_env scenario_age_twice 0%nat
  = predict demo_env scenario_age_40 0%nat.
Proof.
  apply (predict_last_member_wins demo_env scenario_age_twice scenario_age_40
           scenario_members "age" (VInt 40) 0%nat); reflexivity.
Defined.

Lemma serve_isolated_witness :
  serve demo_env scenario_session 0%nat
  = (map (served_alone demo_env 0%nat) scenario_session, 0%nat).
Proof.
  apply (serve_isolated demo_env scenario_session 0%nat).
  exact demo_env_immutable.
Defined.

(** The journal of the scenario, and of the scenario without its age. *)
Example scenario_journal :
  snd (snd (predict (journaled demo_env) scenario_request (0%nat, [])))
  = [ call_transform scenario_frame;
      call_predict scenario_scaled;
      call_predict_proba scenario_scaled ]
  /\ snd (snd (predict (journaled demo_env) scenario_without_age (0%nat, []))) = [].
Proof. split; reflexivity. Qed.

(** A drifting classifier answers the same request differently within one
    session. *)
Example drifting_session :
  fst (serve drifting_env [scenario_request; scenario_request] 0%nat)
  <> map (served_alone drifting_env 0%nat) [scenario_request; scenario_request].
Proof. discriminate. Qed.
